(** * Cartographer: the Python function extractor

    A shallow embedding of [src/extractors/python_ast_helper.py]: the
    helper reads a JSON request on its standard input, parses the Python
    source it carries with [ast.parse], walks the tree with [ast.walk] and
    prints one record per function definition.

    The Python standard library is not part of the repository.  Its
    purely structural parts ([ast.walk], [ast.iter_child_nodes]) are
    embedded from CPython's [Lib/ast.py]; the parser, the JSON decoder and
    the iteration order of a [set] of strings are parameters.

    The key check of [test.py], [verify_gemini_api_key], is embedded as
    well, with the [requests] library as a parameter. *)

From Stdlib Require Import Ascii.
From Equations Require Import Equations.
From stdpp Require Import gmap strings list sorting.

Set Warnings "-register-all".

(** ** Syntax trees

    The node classes of the [ast] module (abstract grammar of Python
    3.12) that the extractor looks at, or that the properties below talk
    about; every remaining class is an [Other] node carrying its child
    nodes in field order.  A constructor lists the fields of its class in
    the order of the class's [_fields]; fields that never hold a node
    ([type_comment], [kind]) are left out.  Of the position attributes
    only those the extractor reads are kept: [lineno] and [end_lineno] of
    the two definition classes, where [end_lineno = None] stands for a
    node on which [hasattr(node, 'end_lineno')] is false (an interpreter
    whose grammar does not track closing lines). *)
Inductive node : Type :=
  (* mod *)
  | Module (body : list node) (type_ignores : list node)
  (* stmt *)
  | FunctionDef (name : string) (args : node) (body decorator_list : list node)
      (returns : option node) (type_params : list node)
      (lineno : Z) (end_lineno : option Z)
  | AsyncFunctionDef (name : string) (args : node) (body decorator_list : list node)
      (returns : option node) (type_params : list node)
      (lineno : Z) (end_lineno : option Z)
  | ClassDef (name : string) (bases keywords body decorator_list type_params : list node)
  | Return (value : option node)
  | Assign (targets : list node) (value : node)
  | If (test : node) (body orelse : list node)
  | Expr (value : node)
  | Pass
  (* expr *)
  | Lambda (args : node) (body : node)
  | Call (func : node) (args keywords : list node)
  | Attribute (value : node) (attr : string) (ctx : node)
  | Subscript (value slice ctx : node)
  | Name (id : string) (ctx : node)
  (* expr_context *)
  | Load
  | Store
  (* arguments, arg, keyword *)
  | arguments (posonlyargs args : list node) (vararg : option node)
      (kwonlyargs : list node) (kw_defaults : list (option node))
      (kwarg : option node) (defaults : list node)
  | arg (arg_name : string) (annotation : option node)
  | keyword (arg_name : option string) (value : node)
  (* every other class *)
  | Other (cls : string) (children : list node).

(** An optional field yields its node when it holds one. *)
Definition opt_node (field : option node) : list node :=
  match field with Some n => [n] | None => [] end.

(** [ast.iter_child_nodes]: the fields are visited in order; a field that
    is a node is yielded, a field that is a list yields its items that are
    nodes, anything else ([None], strings, numbers) is skipped. *)
Definition iter_child_nodes (n : node) : list node :=
  match n with
  | Module body type_ignores => body ++ type_ignores
  | FunctionDef _ args body decorator_list returns type_params _ _
  | AsyncFunctionDef _ args body decorator_list returns type_params _ _ =>
      args :: body ++ decorator_list ++ opt_node returns ++ type_params
  | ClassDef _ bases keywords body decorator_list type_params =>
      bases ++ keywords ++ body ++ decorator_list ++ type_params
  | Return value => opt_node value
  | Assign targets value => targets ++ [value]
  | If test body orelse => test :: body ++ orelse
  | Expr value => [value]
  | Pass => []
  | Lambda args body => [args; body]
  | Call func args keywords => func :: args ++ keywords
  | Attribute value _ ctx => [value; ctx]
  | Subscript value slice ctx => [value; slice; ctx]
  | Name _ ctx => [ctx]
  | Load | Store => []
  | arguments posonlyargs args vararg kwonlyargs kw_defaults kwarg defaults =>
      posonlyargs ++ args ++ opt_node vararg ++ kwonlyargs
      ++ (kw_defaults ≫= opt_node) ++ opt_node kwarg ++ defaults
  | arg _ annotation => opt_node annotation
  | keyword _ value => [value]
  | Other _ children => children
  end.

(** Number of nodes of a tree, and of a queue of trees. *)
Fixpoint size (n : node) : nat :=
  S match n with
    | Module body type_ignores =>
        sum_list_with size body + sum_list_with size type_ignores
    | FunctionDef _ args body decorator_list returns type_params _ _
    | AsyncFunctionDef _ args body decorator_list returns type_params _ _ =>
        size args + sum_list_with size body + sum_list_with size decorator_list
        + from_option size 0 returns + sum_list_with size type_params
    | ClassDef _ bases keywords body decorator_list type_params =>
        sum_list_with size bases + sum_list_with size keywords
        + sum_list_with size body + sum_list_with size decorator_list
        + sum_list_with size type_params
    | Return value => from_option size 0 value
    | Assign targets value => sum_list_with size targets + size value
    | If test body orelse =>
        size test + sum_list_with size body + sum_list_with size orelse
    | Expr value => size value
    | Pass => 0
    | Lambda args body => size args + size body
    | Call func args keywords =>
        size func + sum_list_with size args + sum_list_with size keywords
    | Attribute value _ ctx => size value + size ctx
    | Subscript value slice ctx => size value + size slice + size ctx
    | Name _ ctx => size ctx
    | Load | Store => 0
    | arguments posonlyargs args vararg kwonlyargs kw_defaults kwarg defaults =>
        sum_list_with size posonlyargs + sum_list_with size args
        + from_option size 0 vararg + sum_list_with size kwonlyargs
        + sum_list_with (from_option size 0) kw_defaults
        + from_option size 0 kwarg + sum_list_with size defaults
    | arg _ annotation => from_option size 0 annotation
    | keyword _ value => size value
    | Other _ children => sum_list_with size children
    end.

Definition forest_size (todo : list node) : nat := sum_list_with size todo.

(** Proves [size n = S (forest_size (iter_child_nodes n))]: a node
    counts for one more than its children together. *)
Ltac count_children n :=
  let Hopt := fresh "Hopt" in
  let Hkw := fresh "Hkw" in
  assert (Hopt : ∀ o, sum_list_with size (opt_node o) = from_option size 0 o)
    by (intros [?|]; simpl; lia);
  assert (Hkw : ∀ l : list (option node),
             sum_list_with size (l ≫= opt_node)
             = sum_list_with (from_option size 0) l)
    by (let l := fresh "l" in
        let IH := fresh "IH" in
        intros l; induction l as [|? l IH]; [reflexivity|];
        rewrite bind_cons, sum_list_with_app, Hopt, IH; reflexivity);
  unfold forest_size; destruct n; cbn [size iter_child_nodes]; f_equal;
  repeat first
    [ rewrite sum_list_with_app | rewrite Hopt | rewrite Hkw
    | progress cbn [sum_list_with] ];
  lia.

(** [ast.walk]: a queue is seeded with the root; each round pops the
    leftmost node, appends its children at the right and yields it.  The
    generator is consumed to its end by both [for] loops of the
    extractor, so it is modelled by the list of the nodes it yields. *)
Equations? walk_queue (todo : list node) : list node by wf (forest_size todo) lt :=
  walk_queue [] := [];
  walk_queue (n :: todo) := n :: walk_queue (todo ++ iter_child_nodes n).
Proof.
  assert (size n = S (forest_size (iter_child_nodes n))) by count_children n.
  unfold forest_size in *. rewrite sum_list_with_app. simpl. lia.
Qed.

Definition walk (n : node) : list node := walk_queue [n].

(** ** Traversal orders, as specifications

    [subnode d n]: the node [d] occurs in the tree rooted at [n], at any
    depth (the reflexive and transitive closure of "is a child of"). *)
Inductive subnode (d : node) : node → Prop :=
  | subnode_here : subnode d d
  | subnode_below (n c : node) :
      c ∈ iter_child_nodes n → subnode d c → subnode d n.

(** Depth-first, pre-order: a node, then the traversals of its children
    from left to right, each one to its end before the next starts. *)
Fixpoint preorder (n : node) : list node :=
  n :: match n with
       | Module body type_ignores =>
           (body ≫= preorder) ++ (type_ignores ≫= preorder)
       | FunctionDef _ args body decorator_list returns type_params _ _
       | AsyncFunctionDef _ args body decorator_list returns type_params _ _ =>
           preorder args ++ (body ≫= preorder) ++ (decorator_list ≫= preorder)
           ++ from_option preorder [] returns ++ (type_params ≫= preorder)
       | ClassDef _ bases keywords body decorator_list type_params =>
           (bases ≫= preorder) ++ (keywords ≫= preorder) ++ (body ≫= preorder)
           ++ (decorator_list ≫= preorder) ++ (type_params ≫= preorder)
       | Return value => from_option preorder [] value
       | Assign targets value => (targets ≫= preorder) ++ preorder value
       | If test body orelse =>
           preorder test ++ (body ≫= preorder) ++ (orelse ≫= preorder)
       | Expr value => preorder value
       | Pass => []
       | Lambda args body => preorder args ++ preorder body
       | Call func args keywords =>
           preorder func ++ (args ≫= preorder) ++ (keywords ≫= preorder)
       | Attribute value _ ctx => preorder value ++ preorder ctx
       | Subscript value slice ctx =>
           preorder value ++ preorder slice ++ preorder ctx
       | Name _ ctx => preorder ctx
       | Load | Store => []
       | arguments posonlyargs args vararg kwonlyargs kw_defaults kwarg defaults =>
           (posonlyargs ≫= preorder) ++ (args ≫= preorder)
           ++ from_option preorder [] vararg ++ (kwonlyargs ≫= preorder)
           ++ (kw_defaults ≫= from_option preorder [])
           ++ from_option preorder [] kwarg ++ (defaults ≫= preorder)
       | arg _ annotation => from_option preorder [] annotation
       | keyword _ value => preorder value
       | Other _ children => children ≫= preorder
       end.

(** The nodes [d] edges below [n], from left to right. *)
Fixpoint level (d : nat) (n : node) : list node :=
  match d with
  | 0 => [n]
  | S d' => iter_child_nodes n ≫= level d'
  end.

(** Breadth-first (level order): the root, then its children, then their
    children, and so on.  A tree of [size n] nodes has no node at depth
    [size n] or below, so these levels are all of them. *)
Definition breadth_first (n : node) : list node :=
  seq 0 (size n) ≫= λ d, level d n.

(** ** Python values, exceptions and results *)

(** What [json.loads] returns and [json.dumps] accepts.  A float is kept
    as its literal. *)
Inductive pyval : Type :=
  | PyNone
  | PyBool (b : bool)
  | PyInt (z : Z)
  | PyFloat (literal : string)
  | PyStr (s : string)
  | PyList (items : list pyval)
  | PyDict (entries : gmap string pyval).

(** The exceptions of a run; all of them are subclasses of [Exception].
    [LibraryError cls msg] is an exception of class [cls] raised inside
    [json.loads] or [ast.parse] ([JSONDecodeError], [SyntaxError],
    [ValueError], [RecursionError], ...) whose [str] is [msg]. *)
Inductive exception : Type :=
  | KeyError (key : string)
  | TypeError (msg : string)
  | LibraryError (cls msg : string).

(** [str(e)]; a [KeyError] prints the [repr] of the missing key. *)
Definition str (e : exception) : string :=
  match e with
  | KeyError key => "'" +:+ key +:+ "'"
  | TypeError msg => msg
  | LibraryError _ msg => msg
  end.

Inductive result (A : Type) : Type :=
  | Ok (a : A)
  | Raise (e : exception).
Arguments Ok {A} a.
Arguments Raise {A} e.

#[global] Instance result_ret : MRet result := λ A a, Ok a.
#[global] Instance result_bind : MBind result := λ A B f m,
  match m with
  | Ok a => f a
  | Raise e => Raise e
  end.

(** [obj[key]] for a string key. *)
Definition getitem (obj : pyval) (key : string) : result pyval :=
  match obj with
  | PyDict entries =>
      match entries !! key with
      | Some v => Ok v
      | None => Raise (KeyError key)
      end
  | PyList _ => Raise (TypeError "list indices must be integers or slices, not str")
  | PyStr _ => Raise (TypeError "string indices must be integers, not 'str'")
  | PyNone => Raise (TypeError "'NoneType' object is not subscriptable")
  | PyBool _ => Raise (TypeError "'bool' object is not subscriptable")
  | PyInt _ => Raise (TypeError "'int' object is not subscriptable")
  | PyFloat _ => Raise (TypeError "'float' object is not subscriptable")
  end.

(** [list(set(names))] keeps each name once; the order in which a set of
    strings is iterated depends on the hash seed of the process, so it is
    a parameter of the model, known only to be some enumeration of the
    set. *)
Class SetIteration : Type := {
  set_to_list : gset string → list string;
  set_to_list_perm (s : gset string) : set_to_list s ≡ₚ elements s
}.

(** Two iteration orders, to run the model with. *)
#[export] Program Instance canonical_order : SetIteration :=
  {| set_to_list := elements |}.
Next Obligation. done. Qed.

Program Definition reversed_order : SetIteration :=
  {| set_to_list := λ s, reverse (elements s) |}.
Next Obligation. intros s. apply reverse_Permutation. Qed.

(** ** The extractor *)

(** One entry of the output: the dictionary with the keys ['name'],
    ['start_line'], ['end_line'] and ['calls']. *)
Record FunctionRecord : Type := {
  name : string;
  start_line : Z;
  end_line : Z;
  calls : list string
}.

Definition is_definition (n : node) : bool :=
  match n with
  | FunctionDef _ _ _ _ _ _ _ _ | AsyncFunctionDef _ _ _ _ _ _ _ _ => true
  | _ => false
  end.

(** [extract_function_calls], lines 5-15. *)
Definition extract_function_calls (n : node) : list string :=
  foldl (λ calls child,
           match child with
           | Call func _ _ =>
               match func with
               | Name id _ => calls ++ [id]
               | Attribute _ attr _ => calls ++ [attr]
               | _ => calls
               end
           | _ => calls
           end)
        [] (walk n).

(** What one round of that loop appends, as a function of the node it
    is looking at: the name a call site is recorded under, if any. *)
Definition call_target (child : node) : option string :=
  match child with
  | Call (Name id _) _ _ => Some id
  | Call (Attribute _ attr _) _ _ => Some attr
  | _ => None
  end.

Section Extractor.
Context `{SetIteration}.

(** [extract_functions], lines 17-31. *)
Definition extract_functions (tree : node) (file_path : pyval) : list FunctionRecord :=
  foldl (λ functions n,
           match n with
           | FunctionDef name _ _ _ _ _ lineno end_lineno
           | AsyncFunctionDef name _ _ _ _ _ lineno end_lineno =>
               let calls := extract_function_calls n in
               functions ++
                 [{| name := name;
                     start_line := lineno;
                     end_line := match end_lineno with
                                 | Some e => e
                                 | None => lineno
                                 end;
                     calls := set_to_list (list_to_set calls) |}]
           | _ => functions
           end)
        [] (walk tree).

(** What one round of that loop appends: the record of a definition
    node, nothing for a node of any other class. *)
Definition function_record (n : node) : option FunctionRecord :=
  match n with
  | FunctionDef name _ _ _ _ _ lineno end_lineno
  | AsyncFunctionDef name _ _ _ _ _ lineno end_lineno =>
      Some {| name := name;
              start_line := lineno;
              end_line := match end_lineno with
                          | Some e => e
                          | None => lineno
                          end;
              calls := set_to_list (list_to_set (extract_function_calls n)) |}
  | _ => None
  end.

(** The standard library's parser and JSON decoder.  [ast_parse content
    filename] is [ast.parse(content, filename=filename)]; it returns a
    tree or raises. *)
Context (ast_parse : pyval → pyval → result node).
Context (json_loads : string → result pyval).

(** The analysis proper, lines 41-44 of [main]: parse, then extract. *)
Definition analyze (file_path content : pyval) : result (list FunctionRecord) :=
  tree ← ast_parse content file_path;
  mret (extract_functions tree file_path).

(** The value [json.dumps] receives for the list of records. *)
Definition record_value (r : FunctionRecord) : pyval :=
  PyDict (list_to_map
            [("name", PyStr (name r));
             ("start_line", PyInt (start_line r));
             ("end_line", PyInt (end_line r));
             ("calls", PyList (PyStr <$> calls r))]).

(** What a run leaves behind: the values serialised with [json.dumps] and
    printed on each channel, and the exit code. *)
Record outcome : Type := {
  stdout : list pyval;
  stderr : list pyval;
  exit_code : Z
}.

(** The body of the [try] block of [main], lines 36-44, up to the value
    that is printed. *)
Definition try_body (stdin : string) : result (list FunctionRecord) :=
  input_data ← json_loads stdin;
  file_path ← getitem input_data "file";
  content ← getitem input_data "content";
  analyze file_path content.

(** [main], lines 33-50: the records go to the standard output and the
    process ends normally, or the [except] clause reports the exception on
    the standard error and exits with code 1. *)
Definition main (stdin : string) : outcome :=
  match try_body stdin with
  | Ok functions =>
      {| stdout := [PyList (record_value <$> functions)];
         stderr := [];
         exit_code := 0 |}
  | Raise e =>
      {| stdout := [];
         stderr := [PyDict {[ "error" := PyStr (str e) ]}];
         exit_code := 1 |}
  end.

(** The exceptions a run can meet, by the step that raises them. *)
Inductive raised (stdin : string) : exception → Prop :=
  | raised_by_json_loads e :
      json_loads stdin = Raise e → raised stdin e
  | raised_by_file input_data e :
      json_loads stdin = Ok input_data →
      getitem input_data "file" = Raise e → raised stdin e
  | raised_by_content input_data file_path e :
      json_loads stdin = Ok input_data →
      getitem input_data "file" = Ok file_path →
      getitem input_data "content" = Raise e → raised stdin e
  | raised_by_ast_parse input_data file_path content e :
      json_loads stdin = Ok input_data →
      getitem input_data "file" = Ok file_path →
      getitem input_data "content" = Ok content →
      ast_parse content file_path = Raise e → raised stdin e.

End Extractor.

(** ** Notions the properties are stated with *)

(** The parser's guarantee on positions: a definition that has a closing
    line does not close before it starts. *)
Definition span_ok (n : node) : Prop :=
  match n with
  | FunctionDef _ _ _ _ _ _ lineno (Some e)
  | AsyncFunctionDef _ _ _ _ _ _ lineno (Some e) => (lineno ≤ e)%Z
  | _ => True
  end.

Definition well_spanned (tree : node) : Prop :=
  ∀ d, subnode d tree → span_ok d.

(** The expressions of a definition node that are not in its body: its
    decorators, and the default values of its parameters. *)
Definition decorators (d : node) : list node :=
  match d with
  | FunctionDef _ _ _ decorator_list _ _ _ _
  | AsyncFunctionDef _ _ _ decorator_list _ _ _ _ => decorator_list
  | _ => []
  end.

Definition default_values (d : node) : list node :=
  match d with
  | FunctionDef _ (arguments _ _ _ _ kw_defaults _ defaults) _ _ _ _ _ _
  | AsyncFunctionDef _ (arguments _ _ _ _ kw_defaults _ defaults) _ _ _ _ _ _ =>
      (kw_defaults ≫= opt_node) ++ defaults
  | _ => []
  end.

(** Two records, and two results, that agree up to the order in which
    the names of [calls] are listed. *)
Definition record_equiv (r1 r2 : FunctionRecord) : Prop :=
  name r1 = name r2 ∧ start_line r1 = start_line r2
  ∧ end_line r1 = end_line r2 ∧ calls r1 ≡ₚ calls r2.

Definition result_equiv (x y : result (list FunctionRecord)) : Prop :=
  match x, y with
  | Ok l1, Ok l2 => Forall2 record_equiv l1 l2
  | Raise e1, Raise e2 => e1 = e2
  | _, _ => False
  end.

(** ** Sample inputs *)

Definition no_arguments : node := arguments [] [] None [] [] None [].

(** [def outer():]
    [    def inner(): pass]
    [def second(): pass] *)
Definition sample_nested : node :=
  Module
    [FunctionDef "outer" no_arguments
       [FunctionDef "inner" no_arguments [Pass] [] None [] 2 (Some 2%Z)]
       [] None [] 1 (Some 2%Z);
     FunctionDef "second" no_arguments [Pass] [] None [] 3 (Some 3%Z)]
    [].

(** The second scenario of the specification:
    [def outer():]
    [    def inner():]
    [        helper()]
    [    x.process()] *)
Definition sample_helper_call : node :=
  Expr (Call (Name "helper" Load) [] []).

Definition sample_inner : node :=
  FunctionDef "inner" no_arguments [sample_helper_call] [] None [] 2 (Some 3%Z).

Definition sample_outer : node :=
  FunctionDef "outer" no_arguments
    [sample_inner;
     Expr (Call (Attribute (Name "x" Load) "process" Load) [] [])]
    [] None [] 1 (Some 4%Z).

Definition sample_scenario : node := Module [sample_outer] [].

(** [@deco]
    [def f(): pass] *)
Definition sample_bare_decorator : node :=
  FunctionDef "f" no_arguments [Pass] [Name "deco" Load] None [] 2 (Some 2%Z).

(** [@deco()]
    [def f(x=make()): pass] *)
Definition sample_called_decorator : node :=
  FunctionDef "f"
    (arguments [] [arg "x" None] None [] [] None [Call (Name "make" Load) [] []])
    [Pass] [Call (Name "deco" Load) [] []] None [] 2 (Some 2%Z).

(** [f = lambda x: g(x)] *)
Definition sample_lambda : node :=
  Module
    [Assign [Name "f" Store]
       (Lambda (arguments [] [arg "x" None] None [] [] None [])
          (Call (Name "g" Load) [Name "x" Load] []))]
    [].

(** [async def fetch(): get()] *)
Definition sample_async : node :=
  AsyncFunctionDef "fetch" no_arguments
    [Expr (Call (Name "get" Load) [] [])] [] None [] 1 (Some 1%Z).

(** The call [a.b.c()]. *)
Definition call_a_b_c (a b c : string) : node :=
  Call (Attribute (Attribute (Name a Load) b Load) c Load) [] [].

(** A definition nested in a conditional block in a method of a class. *)
Definition sample_deeply_nested : node :=
  Module
    [ClassDef "K" [] []
       [FunctionDef "method" no_arguments
          [If (Name "flag" Load) [sample_async] []]
          [] None [] 2 (Some 4%Z)]
       [] []]
    [].

(** A stand-in for the parser that knows one program,
    [def foo(): bar(); bar()], and rejects everything else. *)
Definition sample_source : string := "def foo(): bar(); bar()".

Definition sample_tree : node :=
  Module
    [FunctionDef "foo" no_arguments
       [Expr (Call (Name "bar" Load) [] []);
        Expr (Call (Name "bar" Load) [] [])]
       [] None [] 1 (Some 1%Z)]
    [].

Definition sample_parse (content filename : pyval) : result node :=
  match content with
  | PyStr s =>
      if String.eqb s sample_source then Ok sample_tree
      else Raise (LibraryError "SyntaxError" "invalid syntax")
  | _ => Raise (TypeError "compile() arg 1 must be a string, bytes or AST object")
  end.

(** A stand-in for the JSON decoder that knows the empty object. *)
Definition sample_loads (stdin : string) : result pyval :=
  if String.eqb stdin "{}" then Ok (PyDict ∅)
  else Raise (LibraryError "JSONDecodeError" "Expecting value: line 1 column 1 (char 0)").

(** ** Further notions and sample inputs *)

(** The name a definition node declares. *)
Definition definition_name (n : node) : option string :=
  match n with
  | FunctionDef name _ _ _ _ _ _ _ | AsyncFunctionDef name _ _ _ _ _ _ _ => Some name
  | _ => None
  end.

(** Whether a definition node carries the attribute [end_lineno]. *)
Definition has_end_lineno (n : node) : bool :=
  match n with
  | FunctionDef _ _ _ _ _ _ _ (Some _) | AsyncFunctionDef _ _ _ _ _ _ _ (Some _) => true
  | _ => false
  end.

(** [setup()]
    [def f(): pass] *)
Definition sample_module_level_call : node :=
  Module
    [Expr (Call (Name "setup" Load) [] []);
     FunctionDef "f" no_arguments [Pass] [] None [] 2 (Some 2%Z)]
    [].

(** [def f(): pass], read by a parser that reports no closing lines. *)
Definition sample_no_end_lineno : node :=
  Module [FunctionDef "f" no_arguments [Pass] [] None [] 1 None] [].

(** [def f(): pass] on its own, and the definition of [sample_source]. *)
Definition sample_plain : node :=
  FunctionDef "f" no_arguments [Pass] [] None [] 2 (Some 2%Z).

Definition sample_foo : node :=
  FunctionDef "foo" no_arguments
    [Expr (Call (Name "bar" Load) [] []);
     Expr (Call (Name "bar" Load) [] [])]
    [] None [] 1 (Some 1%Z).

(** The double quote, and two requests for [sample_source]: the plain
    one, [{"file": "a.py", "content": "def foo(): bar(); bar()"}], and one
    that carries a further field, ["lang": "python"]. *)
Definition dquote : string := String (Ascii.ascii_of_nat 34) EmptyString.

Definition json_field (key value : string) : string :=
  dquote +:+ key +:+ dquote +:+ ": " +:+ dquote +:+ value +:+ dquote.

Definition sample_request : string :=
  "{" +:+ json_field "file" "a.py" +:+ ", "
  +:+ json_field "content" sample_source +:+ "}".

Definition sample_request_with_lang : string :=
  "{" +:+ json_field "file" "a.py" +:+ ", "
  +:+ json_field "content" sample_source +:+ ", "
  +:+ json_field "lang" "python" +:+ "}".

(** A stand-in for the JSON decoder that knows these two requests and
    the empty array. *)
Definition sample_request_loads (stdin : string) : result pyval :=
  if String.eqb stdin sample_request then
    Ok (PyDict {[ "file" := PyStr "a.py"; "content" := PyStr sample_source ]})
  else if String.eqb stdin sample_request_with_lang then
    Ok (PyDict {[ "file" := PyStr "a.py"; "content" := PyStr sample_source;
                  "lang" := PyStr "python" ]})
  else if String.eqb stdin "[]" then Ok (PyList [])
  else Raise (LibraryError "JSONDecodeError" "Expecting value: line 1 column 1 (char 0)").

(** ** The key check of [test.py]

    [verify_gemini_api_key] sends one request with the [requests]
    library and judges the key by the response.  The library is a
    parameter: [requests_get url headers] is [requests.get(url,
    headers=headers)], which returns a response or raises; of a response
    the function reads [status_code] and, when it calls [json()], the
    decoded body or the exception that call raises. *)
Record response : Type := {
  status_code : Z;
  json : result pyval
}.

(** How a call of the function ends: it prints one line and returns a
    boolean, or an exception of the library propagates, or a [.get] is
    tried on a value that is not a dictionary ([AttributeError]).  Nothing
    is printed before an exception. *)
Inductive key_check : Type :=
  | Returns (printed : string) (value : bool)
  | Propagates (e : exception)
  | NoAttributeGet (obj : pyval).

Section KeyCheck.
Context (requests_get : string → gmap string string → result response).

(** [str] of a value that is not a string, as an f-string formats it. *)
Context (py_str : pyval → string).

(** [f"{value}"]. *)
Definition format_value (value : pyval) : string :=
  match value with
  | PyStr s => s
  | _ => py_str value
  end.

(** [verify_gemini_api_key], lines 3-17 of [test.py]. *)
Definition verify_gemini_api_key (api_key : string) : key_check :=
  let url := "https://generativelanguage.googleapis.com/v1/models" in
  let headers : gmap string string :=
    {[ "Content-Type" := "application/json"; "x-goog-api-key" := api_key ]} in
  match requests_get url headers with
  | Raise e => Propagates e
  | Ok response =>
      if decide (status_code response = 200%Z) then
        Returns "Valid API key." true
      else
        match json response with
        | Raise e => Propagates e
        | Ok (PyDict body) =>
            match default (PyDict ∅) (body !! "error") with
            | PyDict error =>
                let error_msg := default (PyStr "Invalid API key") (error !! "message") in
                Returns ("Invalid or restricted API key: " +:+ format_value error_msg) false
            | other => NoAttributeGet other
            end
        | Ok other => NoAttributeGet other
        end
  end.

End KeyCheck.

(** A stand-in for the service: the key [good] is accepted with a body
    that is not JSON, the key [bad] is refused with an error object that
    has a code and no message, any other key is refused with
    [{"error": null}]. *)
Definition sample_get (url : string) (headers : gmap string string) : result response :=
  match headers !! "x-goog-api-key" with
  | Some key =>
      if String.eqb key "good" then
        Ok {| status_code := 200;
              json := Raise (LibraryError "JSONDecodeError" "Expecting value") |}
      else if String.eqb key "bad" then
        Ok {| status_code := 400;
              json := Ok (PyDict {[ "error" := PyDict {[ "code" := PyInt 400 ]} ]}) |}
      else
        Ok {| status_code := 403;
              json := Ok (PyDict {[ "error" := PyNone ]}) |}
  | None => Raise (LibraryError "MissingSchema" "no key")
  end.

Definition sample_str (value : pyval) : string := "None".

(** ** A fragment of the grammar, and a parser with a recursion limit

    The expression statements made of the literal [1] under any number of
    unary minus signs: [1], [-1], [--1], ...  Each of them is a module of
    the Python grammar. *)
Inductive signed_literal : string → Prop :=
  | signed_one : signed_literal "1"
  | signed_minus (s : string) : signed_literal s → signed_literal (String "-"%char s).

(** [k] minus signs before the literal. *)
Fixpoint sign_chain (k : nat) : string :=
  match k with
  | 0 => "1"
  | S k' => String "-"%char (sign_chain k')
  end.

(** The number of minus signs of a text of the fragment; [None] for any
    other text. *)
Fixpoint sign_chain_depth (source : string) : option nat :=
  match source with
  | EmptyString => None
  | String a rest =>
      if Ascii.eqb a "-"%char then S <$> sign_chain_depth rest
      else if Ascii.eqb a "1"%char then
        match rest with EmptyString => Some 0 | _ => None end
      else None
  end.

(** The expression [k] minus signs stand for: [UnaryOp(op=USub(),
    operand=...)] around [Constant(value=1)]. *)
Fixpoint negations (k : nat) : node :=
  match k with
  | 0 => Other "Constant" []
  | S k' => Other "UnaryOp" [Other "USub" []; negations k']
  end.

(** A stand-in for the parser on this fragment, with what CPython's
    parser has: a bound on the depth of the tree it builds.  A text
    outside the fragment is a [SyntaxError]; a text of the fragment is
    parsed when its depth is within [limit], and is a [RecursionError]
    beyond. *)
Definition limited_parse (limit : nat) (content filename : pyval) : result node :=
  match content with
  | PyStr source =>
      match sign_chain_depth source with
      | Some k =>
          if decide (k ≤ limit) then Ok (Module [Expr (negations k)] [])
          else Raise (LibraryError "RecursionError"
                        "maximum recursion depth exceeded during ast construction")
      | None => Raise (LibraryError "SyntaxError" "invalid syntax")
      end
  | _ => Raise (TypeError "compile() arg 1 must be a string, bytes or AST object")
  end.

(** The grammar of the fragment, as a property of the content. *)
Definition in_fragment (content : pyval) : Prop :=
  ∃ source, content = PyStr source ∧ signed_literal source.

(** With the default recursion limit of 1000 the deepest chain CPython
    3.11 parses has a little under 3000 signs; a chain of 3000 is beyond. *)
Definition recursion_budget : nat := 2983.

Definition sample_deep_source : string := sign_chain 3000.

(** * Properties *)

(** ** The walk *)

Section Walk.
Implicit Types (n c : node) (todo q : list node).

Lemma size_pos n : 0 < size n.
Proof. destruct n; simpl; lia. Qed.

Lemma size_children n : size n = S (forest_size (iter_child_nodes n)).
Proof. count_children n. Qed.

Lemma forest_size_cons n q : forest_size (n :: q) = size n + forest_size q.
Proof. done. Qed.

Lemma forest_size_app q1 q2 :
  forest_size (q1 ++ q2) = forest_size q1 + forest_size q2.
Proof. apply sum_list_with_app. Qed.

(** One round of the loop of [ast.walk]. *)
Lemma walk_queue_cons n todo :
  walk_queue (n :: todo) = n :: walk_queue (todo ++ iter_child_nodes n).
Proof. by simp walk_queue. Qed.

(** A whole prefix of the queue is yielded before anything that is
    appended while it is being served. *)
Lemma walk_queue_app q1 q2 :
  walk_queue (q1 ++ q2) = q1 ++ walk_queue (q2 ++ (q1 ≫= iter_child_nodes)).
Proof.
  revert q2. induction q1 as [|n q1 IH]; intros q2.
  - csimpl. by rewrite (right_id_L [] (++)).
  - cbn [app]. rewrite walk_queue_cons, <-(assoc_L (++)), IH.
    by rewrite bind_cons, (assoc_L (++)).
Qed.

Lemma walk_queue_level q :
  walk_queue q = q ++ walk_queue (q ≫= iter_child_nodes).
Proof.
  rewrite <-(right_id_L [] (++) q) at 1. by rewrite walk_queue_app.
Qed.

Lemma preorder_children n :
  preorder n = n :: (iter_child_nodes n ≫= preorder).
Proof.
  assert (Hopt : ∀ o, from_option preorder [] o = opt_node o ≫= preorder).
  { intros [m|]; csimpl; [|done]. by rewrite (right_id_L [] (++)). }
  assert (Hkw : ∀ l : list (option node),
             l ≫= from_option preorder [] = (l ≫= opt_node) ≫= preorder).
  { induction l as [|o l IH]; [done|].
    rewrite !bind_cons, bind_app, IH, Hopt. done. }
  destruct n; cbn [preorder iter_child_nodes]; f_equal;
    rewrite ?bind_cons, ?bind_app, ?Hopt, ?Hkw, ?bind_singleton;
    csimpl; rewrite ?app_nil_r; done.
Qed.

(** The walk yields every node of the queued trees, each occurrence
    once: it is a rearrangement of their pre-order listings. *)
Lemma walk_queue_preorder todo : walk_queue todo ≡ₚ todo ≫= preorder.
Proof.
  funelim (walk_queue todo); simp walk_queue; [done|].
  match goal with IH : walk_queue _ ≡ₚ _ |- _ => rewrite IH end.
  rewrite bind_cons, bind_app, preorder_children. cbn [app].
  f_equiv. apply Permutation_app_comm.
Qed.

Lemma walk_preorder n : walk n ≡ₚ preorder n.
Proof.
  unfold walk. rewrite walk_queue_preorder, bind_singleton. done.
Qed.

Lemma elem_of_preorder d n : d ∈ preorder n ↔ subnode d n.
Proof.
  split.
  - remember (size n) as k eqn:Hk. revert n Hk.
    induction (lt_wf k) as [k _ IH]; intros n -> Hd.
    rewrite preorder_children in Hd.
    apply elem_of_cons in Hd as [->|Hd]; [constructor|].
    apply list_elem_of_bind in Hd as (c & Hd & Hc).
    apply subnode_below with c; [done|].
    apply (IH (size c)); [|done|done].
    rewrite (size_children n).
    pose proof (sum_list_with_in c size (iter_child_nodes n) Hc).
    unfold forest_size. lia.
  - induction 1 as [|n c Hc _ IH]; rewrite preorder_children.
    + by left.
    + right. apply list_elem_of_bind. eauto.
Qed.

(** The walk reaches exactly the nodes of the tree. *)
Lemma elem_of_walk d n : d ∈ walk n ↔ subnode d n.
Proof. by rewrite walk_preorder, elem_of_preorder. Qed.

Lemma subnode_trans d c n : subnode d c → subnode c n → subnode d n.
Proof.
  intros Hd. induction 1 as [|n c' Hc' _ IH]; [done|].
  by apply subnode_below with c'.
Qed.

Lemma forest_size_children q :
  forest_size (q ≫= iter_child_nodes) + length q = forest_size q.
Proof.
  induction q as [|n q IH]; [done|].
  rewrite bind_cons, forest_size_app, forest_size_cons, (size_children n).
  simpl. lia.
Qed.

Lemma bind_const_nil {A B} (l : list A) : l ≫= (λ _, @nil B) = [].
Proof. by induction l. Qed.

Lemma bind_seq_S {B} (f : nat → list B) k :
  seq 0 (S k) ≫= f = f 0 ++ (seq 0 k ≫= λ d, f (S d)).
Proof.
  cbn [seq]. rewrite bind_cons. f_equal.
  rewrite <-fmap_S_seq, list_fmap_bind. done.
Qed.

Lemma bind_bind {A B C} (f : A → list B) (g : B → list C) (l : list A) :
  (l ≫= f) ≫= g = l ≫= λ x, f x ≫= g.
Proof.
  induction l as [|x l IH]; [done|].
  by rewrite !bind_cons, bind_app, IH.
Qed.

(** The queue discipline yields the queued trees level by level. *)
Lemma walk_queue_levels k q :
  forest_size q ≤ k → walk_queue q = seq 0 k ≫= λ d, q ≫= level d.
Proof.
  revert q. induction k as [|k IH]; intros q Hk.
  - destruct q as [|n q]; [done|].
    pose proof (size_pos n). rewrite forest_size_cons in Hk. lia.
  - rewrite bind_seq_S, walk_queue_level. f_equal.
    + cbn [level]. induction q as [|n q IHq]; [done|].
      rewrite bind_cons. cbn [app]. f_equal. apply IHq.
      rewrite forest_size_cons in Hk. lia.
    + destruct q as [|n q].
      { csimpl. simp walk_queue. by rewrite bind_const_nil. }
      rewrite IH.
      * apply list_bind_ext; [|done]. intros d. cbn [level].
        by rewrite bind_bind.
      * pose proof (forest_size_children (n :: q)). simpl in *. lia.
Qed.

Lemma walk_breadth_first n : walk n = breadth_first n.
Proof.
  unfold walk, breadth_first.
  rewrite (walk_queue_levels (size n)).
  - apply list_bind_ext; [|done]. intros d. apply bind_singleton.
  - rewrite forest_size_cons. unfold forest_size. simpl. lia.
Qed.

End Walk.

(** ** The two loops *)

(** A loop that appends at most one item per round collects the items
    in the order of the rounds. *)
Lemma foldl_append_omap {A B} (g : A → option B) (step : list B → A → list B) :
  (∀ acc x, step acc x = acc ++ option_list (g x)) →
  ∀ l acc, foldl step acc l = acc ++ omap g l.
Proof.
  intros Hstep l. induction l as [|x l IH]; intros acc; simpl.
  - by rewrite app_nil_r.
  - rewrite IH, Hstep. destruct (g x); simpl; by rewrite <-?(assoc_L (++)), ?app_nil_r.
Qed.

Lemma extract_function_calls_walk n :
  extract_function_calls n = omap call_target (walk n).
Proof.
  unfold extract_function_calls.
  rewrite (foldl_append_omap call_target); [done|].
  intros acc [] ; simpl; rewrite ?app_nil_r; try done.
  destruct func; simpl; by rewrite ?app_nil_r.
Qed.

Lemma elem_of_extract_function_calls (t : string) (n : node) :
  t ∈ extract_function_calls n ↔ ∃ c, subnode c n ∧ call_target c = Some t.
Proof.
  rewrite extract_function_calls_walk, list_elem_of_omap.
  by setoid_rewrite elem_of_walk.
Qed.

Section ExtractorFacts.
Context `{SetIteration}.
Implicit Types (tree d c : node) (r : FunctionRecord) (file_path : pyval).

Lemma extract_functions_walk tree file_path :
  extract_functions tree file_path = omap function_record (walk tree).
Proof.
  unfold extract_functions.
  rewrite (foldl_append_omap function_record); [done|].
  intros acc []; simpl; by rewrite ?app_nil_r.
Qed.

(** The records are those of the definition nodes of the tree, one for
    each occurrence. *)
Lemma extract_functions_preorder tree file_path :
  extract_functions tree file_path ≡ₚ omap function_record (preorder tree).
Proof. by rewrite extract_functions_walk, walk_preorder. Qed.

Lemma elem_of_extract_functions r tree file_path :
  r ∈ extract_functions tree file_path
  ↔ ∃ d, subnode d tree ∧ function_record d = Some r.
Proof.
  rewrite extract_functions_walk, list_elem_of_omap.
  by setoid_rewrite elem_of_walk.
Qed.

Lemma function_record_is_definition d :
  is_definition d = true ↔ is_Some (function_record d).
Proof. destruct d; simpl; split; (done || by inversion 1 || eauto). Qed.

Lemma function_record_calls d r :
  function_record d = Some r →
  calls r ≡ₚ elements (list_to_set (C:=gset string) (extract_function_calls d)).
Proof.
  destruct d; simpl; intros [= <-]; simpl; apply set_to_list_perm.
Qed.

(** The names of [calls] are those of the call sites anywhere below the
    definition node. *)
Lemma elem_of_calls d r (t : string) :
  function_record d = Some r →
  t ∈ calls r ↔ ∃ c, subnode c d ∧ call_target c = Some t.
Proof.
  intros Hr. rewrite (function_record_calls d r Hr).
  rewrite elem_of_elements, elem_of_list_to_set.
  apply elem_of_extract_function_calls.
Qed.

End ExtractorFacts.

(** ** C1: the order of the records *)

(** C1, as stated, fails: on [sample_nested] the records come out as
    [outer], [second], [inner], while a depth-first pre-order walk meets
    [inner] before [second]. *)
Lemma C1_preorder_counterexample :
  name <$> extract_functions sample_nested (PyStr "a.py") = ["outer"; "second"; "inner"]
  ∧ name <$> omap function_record (preorder sample_nested) = ["outer"; "inner"; "second"]
  ∧ extract_functions sample_nested (PyStr "a.py")
    ≠ omap function_record (preorder sample_nested).
Proof.
  assert (H1 : name <$> extract_functions sample_nested (PyStr "a.py")
               = ["outer"; "second"; "inner"]) by (vm_compute; reflexivity).
  assert (H2 : name <$> omap function_record (preorder sample_nested)
               = ["outer"; "inner"; "second"]) by (vm_compute; reflexivity).
  split; [done|]. split; [done|].
  intros Heq. rewrite Heq, H2 in H1. discriminate H1.
Qed.

(** C1 (amended): the records returned for a tree list its function and
    async-function definitions in the order of a breadth-first (level
    order) traversal of the tree, which is the order [ast.walk] yields
    them in. *)
Theorem C1_records_in_breadth_first_order `{SetIteration} (tree : node) (file_path : pyval) :
  extract_functions tree file_path = omap function_record (breadth_first tree).
Proof.
  rewrite extract_functions_walk. f_equal. apply walk_breadth_first.
Qed.

(** ** C2: calls are collected over the whole subtree *)

(** Closes a goal [c ∈ l] on a list given in full. *)
Ltac find_in_list := vm_compute; repeat constructor.

(** Closes a goal [subnode c n] on sample trees, through the walk. *)
Ltac find_subnode := apply elem_of_walk; find_in_list.

(** C2: for a definition node [d] of the tree, with record [r], every
    call site [c] anywhere below [d] -- also one that lies inside a
    definition nested in [d] -- puts its name in [calls r]; and [calls r]
    holds nothing else. *)
Theorem C2_calls_collected_over_whole_subtree `{SetIteration}
    (tree d c : node) (file_path : pyval) (r : FunctionRecord) (t : string) :
  subnode d tree →
  function_record d = Some r →
  subnode c d →
  call_target c = Some t →
  r ∈ extract_functions tree file_path
  ∧ t ∈ calls r
  ∧ (∀ t', t' ∈ calls r → ∃ c', subnode c' d ∧ call_target c' = Some t').
Proof.
  intros Hd Hr Hc Ht. split; [|split].
  - apply elem_of_extract_functions. eauto.
  - apply (elem_of_calls d r t Hr). eauto.
  - intros t'. by rewrite (elem_of_calls d r t' Hr).
Qed.

(** In the second scenario of the specification the call [helper()] of
    [inner] is listed by [outer] as well as by [inner]. *)
Lemma C2_calls_collected_witness :
  ∃ r_outer r_inner,
    function_record sample_outer = Some r_outer
    ∧ function_record sample_inner = Some r_inner
    ∧ "helper" ∈ calls r_outer ∧ "helper" ∈ calls r_inner.
Proof.
  eexists _, _. split; [reflexivity|]. split; [reflexivity|]. split.
  - refine (proj1 (proj2 (C2_calls_collected_over_whole_subtree
      sample_scenario sample_outer (Call (Name "helper" Load) [] [])
      (PyStr "a.py") _ "helper" _ eq_refl _ eq_refl))); find_subnode.
  - refine (proj1 (proj2 (C2_calls_collected_over_whole_subtree
      sample_scenario sample_inner (Call (Name "helper" Load) [] [])
      (PyStr "a.py") _ "helper" _ eq_refl _ eq_refl))); find_subnode.
Defined.

Example scenario_two_records :
  extract_functions sample_scenario (PyStr "a.py")
  = [ {| name := "outer"; start_line := 1; end_line := 4;
         calls := set_to_list {[ "helper"; "process" ]} |};
      {| name := "inner"; start_line := 2; end_line := 3;
         calls := set_to_list {[ "helper" ]} |} ].
Proof. vm_compute. reflexivity. Qed.

(** ** C3: an error exactly when parsing fails *)

Section Analyze.
Context `{SetIteration}.
Context (ast_parse : pyval → pyval → result node).
Context (json_loads : string → result pyval).

Lemma analyze_Ok file_path content rs :
  analyze ast_parse file_path content = Ok rs
  ↔ ∃ tree, ast_parse content file_path = Ok tree
            ∧ rs = extract_functions tree file_path.
Proof.
  unfold analyze. destruct (ast_parse content file_path) as [tree|e]; simpl.
  - split; [intros [= <-]; eauto|]. by intros (? & [= <-] & ->).
  - split; [done|]. by intros (? & ? & _).
Qed.

Lemma analyze_Raise file_path content e :
  analyze ast_parse file_path content = Raise e
  ↔ ast_parse content file_path = Raise e.
Proof.
  unfold analyze. destruct (ast_parse content file_path) as [tree|e']; simpl.
  - split; done.
  - split; by intros [= <-].
Qed.

(** The grammar: [grammatical content] says that the content is
    syntactically valid.  The parser accepts nothing else. *)
Context (grammatical : pyval → Prop).

(** C3 (amended): [analyze] returns an error exactly when the parser
    raises, and the error is the parser's.  The parser accepting only
    valid content, a syntactically invalid content gives an error and
    never a sequence, and a sequence is returned only for valid content;
    it is then the whole extraction of the parsed tree.  A run on a
    request for that file and content prints that sequence and exits with
    0, or prints no record, reports the error and exits with 1. *)
Theorem C3_error_iff_parser_raises (file_path content : pyval) :
  (∀ c f tree, ast_parse c f = Ok tree → grammatical c) →
  (¬ grammatical content →
     ∃ e, ast_parse content file_path = Raise e
          ∧ analyze ast_parse file_path content = Raise e)
  ∧ (∀ rs, analyze ast_parse file_path content = Ok rs →
       grammatical content
       ∧ ∃ tree, ast_parse content file_path = Ok tree
                 ∧ rs = extract_functions tree file_path)
  ∧ (∀ e, analyze ast_parse file_path content = Raise e
          ↔ ast_parse content file_path = Raise e)
  ∧ (∀ stdin input_data,
       json_loads stdin = Ok input_data →
       getitem input_data "file" = Ok file_path →
       getitem input_data "content" = Ok content →
       match analyze ast_parse file_path content with
       | Ok rs =>
           stdout (main ast_parse json_loads stdin) = [PyList (record_value <$> rs)]
           ∧ exit_code (main ast_parse json_loads stdin) = 0%Z
       | Raise e =>
           stdout (main ast_parse json_loads stdin) = []
           ∧ PyDict {[ "error" := PyStr (str e) ]}
             ∈ stderr (main ast_parse json_loads stdin)
           ∧ exit_code (main ast_parse json_loads stdin) = 1%Z
       end).
Proof.
  intros Hsound. split; [|split; [|split]].
  - intros Hinvalid.
    destruct (ast_parse content file_path) as [tree|e] eqn:Hparse.
    + destruct Hinvalid. by apply (Hsound content file_path tree).
    + exists e. split; [done|]. by apply analyze_Raise.
  - intros rs (tree & Hparse & ->)%analyze_Ok. split; [|eauto].
    by apply (Hsound content file_path tree).
  - intros e. apply analyze_Raise.
  - intros stdin input_data Hloads Hfile Hcontent.
    unfold main, try_body. rewrite Hloads. simpl.
    rewrite Hfile. simpl. rewrite Hcontent. simpl.
    destruct (analyze ast_parse file_path content) as [rs|e]; simpl.
    + done.
    + split; [done|]. split; [|done]. apply list_elem_of_here.
Qed.

End Analyze.

Lemma sign_chain_signed_literal k : signed_literal (sign_chain k).
Proof. induction k; simpl; by constructor. Qed.

Lemma sign_chain_depth_signed_literal source k :
  sign_chain_depth source = Some k → signed_literal source.
Proof.
  revert k. induction source as [|a rest IH]; intros k; simpl; [done|].
  destruct (Ascii.eqb_spec a "-"%char) as [->|_].
  - destruct (sign_chain_depth rest) as [k'|]; [|done].
    intros _. constructor. by apply (IH k').
  - destruct (Ascii.eqb_spec a "1"%char) as [->|_]; [|done].
    destruct rest; [|done]. intros _. constructor.
Qed.

(** The stand-in parser accepts only texts of the fragment. *)
Lemma limited_parse_sound limit c f tree :
  limited_parse limit c f = Ok tree → in_fragment c.
Proof.
  unfold limited_parse. destruct c as [| | | |source| |]; try done.
  destruct (sign_chain_depth source) as [k|] eqn:Hdepth; [|done].
  intros _. exists source. split; [done|].
  by apply (sign_chain_depth_signed_literal source k).
Qed.

(** C3, as stated, fails: a chain of 3000 minus signs before [1] is
    syntactically valid, and the parser gives up on it with a
    [RecursionError], which [analyze] returns as its error. *)
Lemma C3_valid_input_error_counterexample :
  signed_literal sample_deep_source
  ∧ analyze (limited_parse recursion_budget) (PyStr "a.py") (PyStr sample_deep_source)
    = Raise (LibraryError "RecursionError"
               "maximum recursion depth exceeded during ast construction").
Proof.
  split.
  - apply sign_chain_signed_literal.
  - vm_compute. reflexivity.
Qed.

Lemma not_signed_literal_1_minus : ¬ in_fragment (PyStr "1-").
Proof.
  intros (source & [= <-] & Hsigned). inversion Hsigned.
Qed.

(** The text [1-] is not valid: the parser's error is the result. *)
Lemma C3_error_iff_parser_raises_witness :
  ∃ e, limited_parse recursion_budget (PyStr "1-") (PyStr "a.py") = Raise e
       ∧ analyze (limited_parse recursion_budget) (PyStr "a.py") (PyStr "1-") = Raise e.
Proof.
  apply (C3_error_iff_parser_raises (limited_parse recursion_budget) sample_loads
           in_fragment (PyStr "a.py") (PyStr "1-")).
  - apply limited_parse_sound.
  - exact not_signed_literal_1_minus.
Defined.

(** The accepted program has one definition, whose two calls of [bar]
    are listed once; a text the parser rejects gives its error and no
    record; a tree without definitions gives the empty sequence. *)
Example analyze_sample_source :
  analyze sample_parse (PyStr "a.py") (PyStr sample_source)
  = Ok [ {| name := "foo"; start_line := 1; end_line := 1; calls := ["bar"] |} ].
Proof. vm_compute. reflexivity. Qed.

Example analyze_rejected_source :
  analyze sample_parse (PyStr "a.py") (PyStr "def foo(:")
  = Raise (LibraryError "SyntaxError" "invalid syntax").
Proof. vm_compute. reflexivity. Qed.

Example extract_functions_no_definition :
  extract_functions (Module [Expr (Call (Name "print" Load) [] [])] []) (PyStr "a.py")
  = [].
Proof. vm_compute. reflexivity. Qed.

(** ** C4: the name a call site is recorded under *)

(** C4: the names collected below a node are those of its call sites,
    in the order of the walk, where a call of a bare name gives that
    name, a call of an attribute access gives the attribute's name only,
    a call of anything else gives nothing, and so does a node that is not
    a call; the call [a.b.c()] gives [c] and nothing more. *)
Theorem C4_call_target_rule :
  (∀ n, extract_function_calls n = omap call_target (walk n))
  ∧ (∀ id ctx args keywords,
       call_target (Call (Name id ctx) args keywords) = Some id)
  ∧ (∀ value attr ctx args keywords,
       call_target (Call (Attribute value attr ctx) args keywords) = Some attr)
  ∧ (∀ func args keywords,
       (∀ id ctx, func ≠ Name id ctx) →
       (∀ value attr ctx, func ≠ Attribute value attr ctx) →
       call_target (Call func args keywords) = None)
  ∧ (∀ n, (∀ func args keywords, n ≠ Call func args keywords) →
          call_target n = None)
  ∧ (∀ a b c, extract_function_calls (call_a_b_c a b c) = [c]).
Proof.
  split; [exact extract_function_calls_walk|].
  split; [done|]. split; [done|]. split; [|split].
  - intros func args keywords Hname Hattr.
    destruct func; try done.
    + by edestruct Hattr.
    + by edestruct Hname.
  - intros n Hn. destruct n; try done. by edestruct Hn.
  - intros a b c. rewrite extract_function_calls_walk.
    unfold walk, call_a_b_c. by simp walk_queue.
Qed.

(** Callees that are neither a name nor an attribute access: the result
    of another call, a subscript, a lambda. *)
Example other_callees_give_nothing (f : string) (x y : node) :
  call_target (Call (Call (Name f Load) [] []) [] []) = None
  ∧ call_target (Call (Subscript x y Load) [] []) = None
  ∧ call_target (Call (Lambda x y) [] []) = None
  ∧ extract_function_calls (Call (Call (Name f Load) [] []) [] []) = [f].
Proof.
  split; [done|]. split; [done|]. split; [done|].
  vm_compute. reflexivity.
Qed.

(** ** C5: line spans and duplicate-free calls *)

Section Spans.
Context `{SetIteration}.
Context (ast_parse : pyval → pyval → result node).

Lemma function_record_span d r :
  span_ok d → function_record d = Some r → (start_line r ≤ end_line r)%Z.
Proof.
  destruct d; simpl; try done;
    intros Hspan [= <-]; simpl; destruct end_lineno; simpl; (done || lia).
Qed.

Lemma function_record_NoDup d r :
  function_record d = Some r → NoDup (calls r).
Proof.
  intros Hr. rewrite (function_record_calls d r Hr). apply NoDup_elements.
Qed.

(** C5: when the parser orders the two lines of every definition it
    reports, every record of a successful result has [start_line ≤
    end_line], and its [calls] lists no name twice. *)
Theorem C5_span_ordered_and_calls_distinct
    (file_path content : pyval) (rs : list FunctionRecord) (r : FunctionRecord) :
  (∀ c f tree, ast_parse c f = Ok tree → well_spanned tree) →
  analyze ast_parse file_path content = Ok rs →
  r ∈ rs →
  (start_line r ≤ end_line r)%Z ∧ NoDup (calls r).
Proof.
  intros Hparser Hrs Hr.
  apply analyze_Ok in Hrs as (tree & Htree & ->).
  apply elem_of_extract_functions in Hr as (d & Hd & Hrec).
  split.
  - apply (function_record_span d); [|done]. by eapply Hparser.
  - by apply (function_record_NoDup d).
Qed.

End Spans.

Lemma sample_tree_well_spanned : well_spanned sample_tree.
Proof.
  intros d Hd. apply elem_of_walk in Hd. vm_compute in Hd.
  repeat (apply elem_of_cons in Hd as [->|Hd]; [by vm_compute|]).
  by apply elem_of_nil in Hd.
Qed.

Lemma sample_parse_well_spanned c f tree :
  sample_parse c f = Ok tree → well_spanned tree.
Proof.
  unfold sample_parse. destruct c; try done.
  destruct (String.eqb s sample_source); [|done].
  intros [= <-]. apply sample_tree_well_spanned.
Qed.

Lemma C5_span_ordered_witness :
  let r := {| name := "foo"; start_line := 1; end_line := 1; calls := ["bar"] |} in
  (start_line r ≤ end_line r)%Z ∧ NoDup (calls r).
Proof.
  intros r.
  apply (C5_span_ordered_and_calls_distinct sample_parse
           (PyStr "a.py") (PyStr sample_source) [r] r).
  - exact sample_parse_well_spanned.
  - vm_compute. reflexivity.
  - find_in_list.
Defined.

(** ** C6: every definition is recorded, asynchronous ones alike *)

Section Completeness.
Context `{SetIteration}.

(** The two definition classes are walked alike. *)
Lemma extract_function_calls_async name args body decorator_list returns
    type_params lineno end_lineno :
  extract_function_calls
    (AsyncFunctionDef name args body decorator_list returns type_params lineno end_lineno)
  = extract_function_calls
      (FunctionDef name args body decorator_list returns type_params lineno end_lineno).
Proof.
  rewrite !extract_function_calls_walk. unfold walk.
  by rewrite !walk_queue_cons.
Qed.

(** C6: every function or async-function definition [d] occurring
    anywhere in the tree, at any depth and below nodes of any class, has
    its record in the result, with the fields read off [d]; and an
    [async def] gets the record the same definition gets as a [def]. *)
Theorem C6_every_definition_recorded
    (tree d : node) (file_path : pyval) :
  subnode d tree →
  is_definition d = true →
  (∃ r, function_record d = Some r ∧ r ∈ extract_functions tree file_path)
  ∧ (∀ name args body decorator_list returns type_params lineno end_lineno,
       function_record
         (AsyncFunctionDef name args body decorator_list returns type_params
            lineno end_lineno)
       = function_record
           (FunctionDef name args body decorator_list returns type_params
              lineno end_lineno)).
Proof.
  intros Hd Hdef. split.
  - apply function_record_is_definition in Hdef as [r Hr].
    exists r. split; [done|]. apply elem_of_extract_functions. eauto.
  - intros. cbn [function_record]. by rewrite extract_function_calls_async.
Qed.

(** There are as many records as the tree has definition nodes. *)
Lemma extract_functions_length tree file_path :
  length (extract_functions tree file_path)
  = length (filter (λ n, is_definition n) (preorder tree)).
Proof.
  rewrite (extract_functions_preorder tree file_path).
  induction (preorder tree) as [|n l IH]; [done|].
  rewrite filter_cons. cbn [omap list_omap].
  destruct n; simpl; try done; by rewrite <-IH.
Qed.

End Completeness.

Lemma C6_every_definition_witness :
  (∃ r, function_record sample_async = Some r
        ∧ r ∈ extract_functions sample_deeply_nested (PyStr "a.py"))
  ∧ (∀ name args body decorator_list returns type_params lineno end_lineno,
       function_record
         (AsyncFunctionDef name args body decorator_list returns type_params
            lineno end_lineno)
       = function_record
           (FunctionDef name args body decorator_list returns type_params
              lineno end_lineno)).
Proof.
  apply (C6_every_definition_recorded sample_deeply_nested sample_async (PyStr "a.py")).
  - find_subnode.
  - reflexivity.
Defined.

(** ** C7: the result is a function of the input *)

Lemma function_record_equiv (o1 o2 : SetIteration) (n : node) :
  option_Forall2 record_equiv
    (@function_record o1 n) (@function_record o2 n).
Proof.
  destruct n; simpl; constructor; repeat split; simpl;
    by rewrite !set_to_list_perm.
Qed.

Lemma extract_functions_equiv (o1 o2 : SetIteration) (tree : node) (file_path : pyval) :
  Forall2 record_equiv
    (@extract_functions o1 tree file_path) (@extract_functions o2 tree file_path).
Proof.
  rewrite !extract_functions_walk.
  induction (walk tree) as [|n l IH]; [constructor|].
  cbn [omap list_omap].
  destruct (function_record_equiv o1 o2 n); [by constructor|done].
Qed.

(** C7: two runs of [analyze] on the same file and content, whatever
    order each run iterates its sets in, both fail with the same error or
    both return the same definitions in the same order, with the same
    name and lines and with [calls] holding the same names. *)
Theorem C7_analyze_deterministic (o1 o2 : SetIteration)
    (ast_parse : pyval → pyval → result node) (file_path content : pyval) :
  result_equiv
    (@analyze o1 ast_parse file_path content)
    (@analyze o2 ast_parse file_path content).
Proof.
  unfold analyze. destruct (ast_parse content file_path) as [tree|e]; simpl.
  - apply extract_functions_equiv.
  - reflexivity.
Qed.

(** The order of [calls] is indeed not fixed: the two sample iteration
    orders list the calls of [outer] differently. *)
Example calls_order_varies :
  calls <$> @extract_functions canonical_order sample_scenario (PyStr "a.py")
  ≠ calls <$> @extract_functions reversed_order sample_scenario (PyStr "a.py").
Proof. vm_compute. discriminate. Qed.

(** ** C8: every exception ends the run the same way *)

Section Failures.
Context `{SetIteration}.
Context (ast_parse : pyval → pyval → result node).
Context (json_loads : string → result pyval).

Lemma try_body_Raise stdin e :
  try_body ast_parse json_loads stdin = Raise e ↔ raised ast_parse json_loads stdin e.
Proof.
  unfold try_body. split.
  - destruct (json_loads stdin) as [input_data|e1] eqn:Hloads; simpl;
      [|intros [= <-]; by apply raised_by_json_loads].
    destruct (getitem input_data "file") as [file_path|e2] eqn:Hfile; simpl;
      [|intros [= <-]; by eapply raised_by_file].
    destruct (getitem input_data "content") as [content|e3] eqn:Hcontent; simpl;
      [|intros [= <-]; by eapply raised_by_content].
    intros Hparse%analyze_Raise. by eapply raised_by_ast_parse.
  - intros [e' Hloads|input_data e' Hloads Hfile
            |input_data file_path e' Hloads Hfile Hcontent
            |input_data file_path content e' Hloads Hfile Hcontent Hparse];
      rewrite Hloads; simpl; [done|..];
      rewrite Hfile; simpl; [done|..];
      rewrite Hcontent; simpl; [done|].
    by apply analyze_Raise.
Qed.

(** A request that is an object without the key is one of the failures. *)
Lemma raised_missing_file stdin entries :
  json_loads stdin = Ok (PyDict entries) →
  entries !! "file" = None →
  raised ast_parse json_loads stdin (KeyError "file").
Proof.
  intros Hloads Hfile. eapply raised_by_file; [done|].
  simpl. by rewrite Hfile.
Qed.

Lemma raised_missing_content stdin entries file_path :
  json_loads stdin = Ok (PyDict entries) →
  entries !! "file" = Some file_path →
  entries !! "content" = None →
  raised ast_parse json_loads stdin (KeyError "content").
Proof.
  intros Hloads Hfile Hcontent. eapply raised_by_content; [done|..]; simpl.
  - by rewrite Hfile.
  - by rewrite Hcontent.
Qed.

(** C8: whichever step raises -- decoding the request, reading its
    ['file'] or its ['content'], or parsing -- the run prints nothing on
    the standard output, prints one object whose only field is ['error'],
    holding the exception's text, on the standard error, and exits with
    code 1. *)
Theorem C8_every_exception_reported_alike (stdin : string) (e : exception) :
  raised ast_parse json_loads stdin e →
  main ast_parse json_loads stdin
  = {| stdout := [];
       stderr := [PyDict {[ "error" := PyStr (str e) ]}];
       exit_code := 1 |}.
Proof.
  intros Hraised. apply try_body_Raise in Hraised.
  unfold main. by rewrite Hraised.
Qed.

(** Conversely a run that exits with code 1 met one of these. *)
Lemma exit_code_1_raised stdin :
  exit_code (main ast_parse json_loads stdin) = 1%Z →
  ∃ e, raised ast_parse json_loads stdin e.
Proof.
  unfold main.
  destruct (try_body ast_parse json_loads stdin) as [rs|e] eqn:Hbody; [done|].
  intros _. exists e. by apply try_body_Raise.
Qed.

End Failures.

(** The request [{}] has no ['file']: the run reports the [KeyError]. *)
Lemma C8_every_exception_witness :
  main sample_parse sample_loads "{}"
  = {| stdout := [];
       stderr := [PyDict {[ "error" := PyStr "'file'" ]}];
       exit_code := 1 |}.
Proof.
  apply (C8_every_exception_reported_alike sample_parse sample_loads "{}" (KeyError "file")).
  apply (raised_missing_file sample_parse sample_loads "{}" ∅); reflexivity.
Defined.

(** ** C9: calls in decorators and default values *)

(** C9, as stated, fails on its own example: a bare decorator, [@deco],
    is a name and not a call, and the [calls] of the function it
    decorates is empty. *)
Lemma C9_bare_decorator_counterexample :
  calls <$> extract_functions (Module [sample_bare_decorator] []) (PyStr "a.py")
  = [[]].
Proof. vm_compute. reflexivity. Qed.

Section OutsideBody.
Context `{SetIteration}.

Lemma decorators_children d e : e ∈ decorators d → e ∈ iter_child_nodes d.
Proof.
  destruct d; simpl; try (by intros ?%elem_of_nil);
    intros He; rewrite elem_of_cons, !elem_of_app; auto.
Qed.

Lemma default_values_below d e : e ∈ default_values d → subnode e d.
Proof.
  intros He.
  assert (∃ a, a ∈ iter_child_nodes d ∧ e ∈ iter_child_nodes a) as (a & Ha & Hea).
  { destruct d; simpl in He; try (by apply elem_of_nil in He);
      destruct d; simpl in He; try (by apply elem_of_nil in He);
      (eexists; split; [by left|]); simpl;
      apply elem_of_app in He as [He|He]; rewrite !elem_of_app; auto 10. }
  apply subnode_below with a; [done|].
  apply subnode_below with e; [done|constructor].
Qed.

(** C9 (amended): a call expression found in a decorator of a
    definition, or in the default value of one of its parameters, puts
    its name in that definition's [calls]. *)
Theorem C9_calls_outside_body_included
    (d e c : node) (r : FunctionRecord) (t : string) :
  function_record d = Some r →
  e ∈ decorators d ++ default_values d →
  subnode c e →
  call_target c = Some t →
  t ∈ calls r.
Proof.
  intros Hr He Hc Ht. apply (elem_of_calls d r t Hr).
  exists c. split; [|done].
  apply subnode_trans with e; [done|].
  apply elem_of_app in He as [He|He].
  - apply subnode_below with e; [by apply decorators_children|constructor].
  - by apply default_values_below.
Qed.

End OutsideBody.

(** The decorator [@deco()] and the default value [make()] are calls. *)
Lemma C9_calls_outside_body_witness :
  ∃ r, function_record sample_called_decorator = Some r
       ∧ "deco" ∈ calls r ∧ "make" ∈ calls r.
Proof.
  eexists. split; [reflexivity|]. split.
  - apply (C9_calls_outside_body_included sample_called_decorator
             (Call (Name "deco" Load) [] []) (Call (Name "deco" Load) [] [])
             _ "deco" eq_refl);
      [find_in_list|constructor|reflexivity].
  - apply (C9_calls_outside_body_included sample_called_decorator
             (Call (Name "make" Load) [] []) (Call (Name "make" Load) [] [])
             _ "make" eq_refl);
      [find_in_list|constructor|reflexivity].
Defined.

(** ** C10: only definition nodes give records *)

(** C10: every record of a result is the record of a [def] or [async
    def] node of the tree; no record comes from a lambda expression, or
    from a node of any other class. *)
Theorem C10_records_only_from_definitions `{SetIteration}
    (tree : node) (file_path : pyval) (r : FunctionRecord) :
  r ∈ extract_functions tree file_path →
  ∃ d, subnode d tree
       ∧ function_record d = Some r
       ∧ is_definition d = true
       ∧ (∀ args body, d ≠ Lambda args body).
Proof.
  intros (d & Hd & Hr)%elem_of_extract_functions.
  exists d. split; [done|]. split; [done|]. split.
  - apply function_record_is_definition. eauto.
  - intros args body ->. discriminate Hr.
Qed.

Lemma C10_records_only_witness :
  ∃ d, subnode d sample_tree
       ∧ function_record d
         = Some {| name := "foo"; start_line := 1; end_line := 1; calls := ["bar"] |}
       ∧ is_definition d = true
       ∧ (∀ args body, d ≠ Lambda args body).
Proof.
  apply (C10_records_only_from_definitions sample_tree (PyStr "a.py")).
  find_in_list.
Defined.

(** A lambda bound to a name leaves no record, at any depth. *)
Lemma no_definition_no_record `{SetIteration} (tree : node) (file_path : pyval) :
  (∀ d, subnode d tree → is_definition d = false) →
  extract_functions tree file_path = [].
Proof.
  intros Hnone.
  destruct (extract_functions tree file_path) as [|r rs] eqn:Hrs; [done|].
  assert (Hr : r ∈ extract_functions tree file_path) by (rewrite Hrs; left).
  apply elem_of_extract_functions in Hr as (d & Hd & Hr).
  assert (is_definition d = true) by (apply function_record_is_definition; eauto).
  specialize (Hnone d Hd). congruence.
Qed.

Example lambda_gives_no_record :
  extract_functions sample_lambda (PyStr "a.py") = [].
Proof. vm_compute. reflexivity. Qed.

(** * Further properties of the extractor *)

(** Runs [tac] on every case of a hypothesis [H : subnode c n] over a
    sample tree [n], with [c] replaced by each node of the tree. *)
Ltac each_subnode H tac :=
  apply elem_of_walk in H; vm_compute in H;
  repeat (apply elem_of_cons in H as [->|H]; [tac|]);
  by apply elem_of_nil in H.

Section Calls.
Context `{SetIteration}.
Implicit Types (tree d c : node) (r : FunctionRecord) (t : string).

(** X1: the [calls] of a definition is empty exactly when no call site
    anywhere below it has a callee that is a name or an attribute
    access. *)
Theorem X1_calls_empty_iff_no_named_call_site d r :
  function_record d = Some r →
  calls r = [] ↔ ∀ c, subnode c d → call_target c = None.
Proof.
  intros Hr. split.
  - intros Hnil c Hc. destruct (call_target c) as [t|] eqn:Ht; [|done].
    assert (t ∈ calls r) as Hin by (apply (elem_of_calls d r t Hr); eauto).
    rewrite Hnil in Hin. by apply elem_of_nil in Hin.
  - intros Hnone. destruct (calls r) as [|t l] eqn:Hcalls; [done|].
    assert (t ∈ calls r) as Hin by (rewrite Hcalls; left).
    apply (elem_of_calls d r t Hr) in Hin as (c & Hc & Ht).
    rewrite (Hnone c Hc) in Ht. discriminate Ht.
Qed.

(** X2: a name that is called only outside every definition -- at
    module level, in a class body -- is in the [calls] of no record. *)
Theorem X2_calls_outside_definitions_dropped tree file_path r t :
  (∀ d c, subnode d tree → is_definition d = true →
          subnode c d → call_target c ≠ Some t) →
  r ∈ extract_functions tree file_path →
  t ∉ calls r.
Proof.
  intros Houtside (d & Hd & Hr)%elem_of_extract_functions Hin.
  apply (elem_of_calls d r t Hr) in Hin as (c & Hc & Ht).
  apply (Houtside d c); [done| |done|done].
  apply function_record_is_definition. eauto.
Qed.

(** X3: a definition nested in another hands all its calls up: the
    [calls] of the inner record is included in the [calls] of the outer
    one. *)
Theorem X3_nested_calls_included d_outer d_inner r_outer r_inner :
  subnode d_inner d_outer →
  function_record d_outer = Some r_outer →
  function_record d_inner = Some r_inner →
  calls r_inner ⊆ calls r_outer.
Proof.
  intros Hnested Houter Hinner t Ht.
  apply (elem_of_calls d_inner r_inner t Hinner) in Ht as (c & Hc & Ht).
  apply (elem_of_calls d_outer r_outer t Houter).
  exists c. split; [|done]. by apply subnode_trans with d_inner.
Qed.

(** X6: removing duplicates loses no name and adds none: [calls] holds
    the names [extract_function_calls] returns for the node, is never
    longer, and is a rearrangement of them when they are all different. *)
Theorem X6_calls_is_deduplicated_extraction d r :
  function_record d = Some r →
  (∀ t, t ∈ calls r ↔ t ∈ extract_function_calls d)
  ∧ length (calls r) ≤ length (extract_function_calls d)
  ∧ (NoDup (extract_function_calls d) → calls r ≡ₚ extract_function_calls d).
Proof.
  intros Hr. pose proof (function_record_calls d r Hr) as Hperm.
  assert (Hmem : ∀ t, t ∈ calls r ↔ t ∈ extract_function_calls d).
  { intros t. by rewrite Hperm, elem_of_elements, elem_of_list_to_set. }
  split; [done|]. split.
  - apply submseteq_length, NoDup_submseteq.
    + by apply (function_record_NoDup d).
    + intros t. apply Hmem.
  - intros Hnodup. rewrite Hperm. by apply elements_list_to_set.
Qed.

(** X11: on a tree whose definitions carry no [end_lineno], every record
    is a single-line record: its [end_line] is its [start_line]. *)
Theorem X11_no_end_lineno_single_line tree file_path r :
  (∀ d, subnode d tree → has_end_lineno d = false) →
  r ∈ extract_functions tree file_path →
  end_line r = start_line r.
Proof.
  intros Hnone (d & Hd & Hr)%elem_of_extract_functions.
  specialize (Hnone d Hd).
  destruct d; simpl in Hr; try done;
    destruct end_lineno; simpl in Hnone; try done;
    by injection Hr as <-.
Qed.

End Calls.

(** X12: [extract_function_calls] returns one entry for each call site
    below the node whose callee is a name or an attribute access, a name
    called several times being listed as often. *)
Theorem X12_one_entry_per_call_site (n : node) :
  extract_function_calls n ≡ₚ omap call_target (preorder n).
Proof.
  rewrite extract_function_calls_walk.
  apply omap_Permutation, walk_preorder.
Qed.

Lemma X1_calls_empty_witness :
  calls {| name := "f"; start_line := 2; end_line := 2; calls := [] |} = []
  ↔ ∀ c, subnode c sample_plain → call_target c = None.
Proof.
  apply (X1_calls_empty_iff_no_named_call_site sample_plain). reflexivity.
Defined.

Lemma X2_calls_outside_witness :
  "setup" ∉ calls {| name := "f"; start_line := 2; end_line := 2; calls := [] |}.
Proof.
  apply (X2_calls_outside_definitions_dropped sample_module_level_call (PyStr "a.py")).
  - intros d c Hd Hdef Hc.
    each_subnode Hd ltac:(first [ discriminate Hdef
                                | each_subnode Hc ltac:(discriminate) ]).
  - find_in_list.
Defined.

Lemma X3_nested_calls_witness :
  calls {| name := "inner"; start_line := 2; end_line := 3;
           calls := set_to_list {[ "helper" ]} |}
  ⊆ calls {| name := "outer"; start_line := 1; end_line := 4;
             calls := set_to_list {[ "helper"; "process" ]} |}.
Proof.
  apply (X3_nested_calls_included sample_outer sample_inner).
  - find_subnode.
  - vm_compute. reflexivity.
  - vm_compute. reflexivity.
Defined.

Lemma X6_calls_deduplicated_witness :
  let r := {| name := "foo"; start_line := 1; end_line := 1; calls := ["bar"] |} in
  (∀ t, t ∈ calls r ↔ t ∈ extract_function_calls sample_foo)
  ∧ length (calls r) ≤ length (extract_function_calls sample_foo)
  ∧ (NoDup (extract_function_calls sample_foo)
     → calls r ≡ₚ extract_function_calls sample_foo).
Proof.
  intros r. apply (X6_calls_is_deduplicated_extraction sample_foo r).
  vm_compute. reflexivity.
Defined.

Lemma X11_no_end_lineno_witness :
  let r := {| name := "f"; start_line := 1; end_line := 1; calls := [] |} in
  end_line r = start_line r.
Proof.
  intros r.
  apply (X11_no_end_lineno_single_line sample_no_end_lineno (PyStr "a.py") r).
  - intros d Hd. each_subnode Hd ltac:(reflexivity).
  - find_in_list.
Defined.

Section Order.
Context `{SetIteration}.

(** X4: the records of the definitions that stand directly in the body
    of the module come first, in the order of the body; the nested ones
    follow. *)
Theorem X4_top_level_definitions_first (body type_ignores : list node) (file_path : pyval) :
  omap function_record body
  `prefix_of` extract_functions (Module body type_ignores) file_path.
Proof.
  rewrite extract_functions_walk. unfold walk.
  rewrite walk_queue_cons, walk_queue_level.
  cbn [app iter_child_nodes omap list_omap function_record].
  rewrite <-(assoc_L (++)), omap_app. by eexists.
Qed.

Lemma fmap_name_function_record (l : list node) :
  name <$> omap function_record l = omap definition_name l.
Proof.
  induction l as [|n l IH]; [done|].
  destruct n; cbn [omap list_omap function_record definition_name fmap list_fmap];
    by rewrite IH.
Qed.

(** X5: the names of the records are the names of the definitions of the
    tree, as many times as they are defined: definitions that share a
    name are kept as separate records. *)
Theorem X5_names_kept_with_repetitions (tree : node) (file_path : pyval) :
  name <$> extract_functions tree file_path ≡ₚ omap definition_name (preorder tree).
Proof.
  rewrite (extract_functions_preorder tree file_path).
  by rewrite fmap_name_function_record.
Qed.

End Order.

(** * Further properties of a run *)

Section Runs.
Context `{SetIteration}.
Context (ast_parse : pyval → pyval → result node).
Context (json_loads : string → result pyval).

(** X7: when the request decodes, holds a ['file'] and a ['content'], and
    the content parses, the run prints on the standard output one list,
    holding the record of each definition of the parsed tree in order, and
    ends with code 0. *)
Theorem X7_successful_run (stdin : string) (input_data file_path content : pyval)
    (tree : node) :
  json_loads stdin = Ok input_data →
  getitem input_data "file" = Ok file_path →
  getitem input_data "content" = Ok content →
  ast_parse content file_path = Ok tree →
  stdout (main ast_parse json_loads stdin)
  = [PyList (record_value <$> extract_functions tree file_path)]
  ∧ exit_code (main ast_parse json_loads stdin) = 0%Z.
Proof.
  intros Hloads Hfile Hcontent Hparse.
  unfold main, try_body, analyze.
  rewrite Hloads. simpl. rewrite Hfile. simpl. rewrite Hcontent. simpl.
  by rewrite Hparse.
Qed.

(** X8: a run ends with code 0 only if every step went through: the
    request decoded, both keys were there and the content parsed. *)
Theorem X8_exit_code_0_all_steps (stdin : string) :
  exit_code (main ast_parse json_loads stdin) = 0%Z →
  ∃ input_data file_path content tree,
    json_loads stdin = Ok input_data
    ∧ getitem input_data "file" = Ok file_path
    ∧ getitem input_data "content" = Ok content
    ∧ ast_parse content file_path = Ok tree.
Proof.
  unfold main, try_body, analyze.
  destruct (json_loads stdin) as [input_data|e1]; simpl; [|done].
  destruct (getitem input_data "file") as [file_path|e2] eqn:Hfile; simpl; [|done].
  destruct (getitem input_data "content") as [content|e3] eqn:Hcontent; simpl; [|done].
  destruct (ast_parse content file_path) as [tree|e4] eqn:Hparse; simpl; [|done].
  intros _. by exists input_data, file_path, content, tree.
Qed.


(** X10: a request that decodes to anything but an object -- an array, a
    string, a number, [null] -- ends with a [TypeError] reported on the
    standard error and code 1; the parser is not consulted. *)
Theorem X10_request_not_an_object (stdin : string) (input_data : pyval) :
  json_loads stdin = Ok input_data →
  (∀ entries, input_data ≠ PyDict entries) →
  ∃ msg,
    try_body ast_parse json_loads stdin = Raise (TypeError msg)
    ∧ main ast_parse json_loads stdin
      = {| stdout := [];
           stderr := [PyDict {[ "error" := PyStr msg ]}];
           exit_code := 1 |}.
Proof.
  intros Hloads Hobject. unfold main, try_body. rewrite Hloads. simpl.
  destruct input_data; simpl; try (by eexists); by edestruct Hobject.
Qed.

End Runs.

Lemma X7_successful_run_witness :
  stdout (main sample_parse sample_request_loads sample_request)
  = [PyList (record_value <$> extract_functions sample_tree (PyStr "a.py"))]
  ∧ exit_code (main sample_parse sample_request_loads sample_request) = 0%Z.
Proof.
  apply (X7_successful_run sample_parse sample_request_loads sample_request
           (PyDict {[ "file" := PyStr "a.py"; "content" := PyStr sample_source ]})
           (PyStr "a.py") (PyStr sample_source) sample_tree);
    vm_compute; reflexivity.
Defined.

Lemma X8_exit_code_0_witness :
  ∃ input_data file_path content tree,
    sample_request_loads sample_request = Ok input_data
    ∧ getitem input_data "file" = Ok file_path
    ∧ getitem input_data "content" = Ok content
    ∧ sample_parse content file_path = Ok tree.
Proof.
  apply (X8_exit_code_0_all_steps sample_parse sample_request_loads sample_request).
  vm_compute. reflexivity.
Defined.


Lemma X10_request_not_an_object_witness :
  ∃ msg,
    try_body sample_parse sample_request_loads "[]" = Raise (TypeError msg)
    ∧ main sample_parse sample_request_loads "[]"
      = {| stdout := [];
           stderr := [PyDict {[ "error" := PyStr msg ]}];
           exit_code := 1 |}.
Proof.
  apply (X10_request_not_an_object sample_parse sample_request_loads "[]" (PyList [])).
  - vm_compute. reflexivity.
  - discriminate.
Defined.

(** * Properties of the key check *)

Section KeyCheckFacts.
Context (requests_get : string → gmap string string → result response).
Context (py_str : pyval → string).

Local Abbreviation verify := (verify_gemini_api_key requests_get py_str).

(** The request the function sends for a key. *)
Local Abbreviation sent api_key :=
  (requests_get "https://generativelanguage.googleapis.com/v1/models"
     {[ "Content-Type" := "application/json"; "x-goog-api-key" := api_key ]}).

(** X14: the function returns [True] exactly when the request comes
    back with status 200, whatever the body is, and what it prints then
    is [Valid API key.]. *)
Theorem X14_true_iff_status_200 (api_key printed : string) :
  verify api_key = Returns printed true
  ↔ printed = "Valid API key."
    ∧ ∃ response, sent api_key = Ok response ∧ status_code response = 200%Z.
Proof.
  unfold verify_gemini_api_key. split.
  - destruct (sent api_key) as [response|e]; [|done].
    destruct (decide (status_code response = 200%Z)) as [Hstatus|_].
    + intros [= <-]. eauto.
    + destruct (json response) as [[]|]; try done.
      destruct (default _ _); done.
  - intros (-> & response & -> & Hstatus). by rewrite decide_True.
Qed.

(** X15: when the request is refused and the body is an object without
    an ['error'], or whose ['error'] is an object without a ['message'],
    the function prints the stock message and returns [False]. *)
Theorem X15_stock_message (api_key : string) (response : response)
    (body : gmap string pyval) :
  sent api_key = Ok response →
  status_code response ≠ 200%Z →
  json response = Ok (PyDict body) →
  body !! "error" = None
  ∨ (∃ error, body !! "error" = Some (PyDict error) ∧ error !! "message" = None) →
  verify api_key = Returns "Invalid or restricted API key: Invalid API key" false.
Proof.
  intros Hsent Hstatus Hjson Herror. unfold verify_gemini_api_key.
  rewrite Hsent, decide_False, Hjson by done.
  destruct Herror as [->|(error & -> & Hmessage)]; simpl.
  - by rewrite lookup_empty.
  - by rewrite Hmessage.
Qed.

(** X16: when the request is refused and the body is not an object, or
    its ['error'] is there and is not an object ([null], a string), the
    function returns no verdict: the [.get] fails on that value and
    nothing is printed. *)
Theorem X16_error_not_an_object (api_key : string) (response : response)
    (body obj : pyval) :
  sent api_key = Ok response →
  status_code response ≠ 200%Z →
  json response = Ok body →
  (∀ entries, obj ≠ PyDict entries) →
  body = obj ∨ (∃ entries, body = PyDict entries ∧ entries !! "error" = Some obj) →
  verify api_key = NoAttributeGet obj.
Proof.
  intros Hsent Hstatus Hjson Hobj Hbody. unfold verify_gemini_api_key.
  rewrite Hsent, decide_False, Hjson by done.
  destruct Hbody as [->|(entries & -> & Herror)].
  - destruct obj; try done. by edestruct Hobj.
  - rewrite Herror. simpl. destruct obj; try done. by edestruct Hobj.
Qed.

End KeyCheckFacts.

Lemma X15_stock_message_witness :
  verify_gemini_api_key sample_get sample_str "bad"
  = Returns "Invalid or restricted API key: Invalid API key" false.
Proof.
  apply (X15_stock_message sample_get sample_str "bad"
           {| status_code := 400;
              json := Ok (PyDict {[ "error" := PyDict {[ "code" := PyInt 400 ]} ]}) |}
           {[ "error" := PyDict {[ "code" := PyInt 400 ]} ]}).
  - vm_compute. reflexivity.
  - discriminate.
  - reflexivity.
  - right. exists {[ "code" := PyInt 400 ]}. split; vm_compute; reflexivity.
Defined.

Lemma X16_error_not_an_object_witness :
  verify_gemini_api_key sample_get sample_str "other" = NoAttributeGet PyNone.
Proof.
  apply (X16_error_not_an_object sample_get sample_str "other"
           {| status_code := 403; json := Ok (PyDict {[ "error" := PyNone ]}) |}
           (PyDict {[ "error" := PyNone ]}) PyNone).
  - vm_compute. reflexivity.
  - discriminate.
  - reflexivity.
  - discriminate.
  - right. exists {[ "error" := PyNone ]}. split; [reflexivity|].
    vm_compute. reflexivity.
Defined.

Example accepted_without_reading_body :
  verify_gemini_api_key sample_get sample_str "good" = Returns "Valid API key." true.
Proof. vm_compute. reflexivity. Qed.
